(** * Koyl AI Nutrition Advisor: a shallow embedding of [app.py]

    [app.py] is a Streamlit script.  Streamlit re-executes the whole script,
    top to bottom, on every user interaction; the only thing that survives
    from one execution to the next is the process-wide store behind
    [@st.cache_resource].  The embedding follows that shape:

    - one execution of the script is a computation in a small monad
      [Script] that threads the process store, logs the observable events
      (page elements and calls to external services) and can end early,
      either through [st.stop()] or through an exception nobody catches;
    - everything the script does not compute itself (the Groq client, the
      embedding model, the FAISS loader, the similarity search, the hosted
      language model) is an oracle of the [World] the execution runs in.
      Each execution gets a [World] of its own, so nothing is assumed about
      an external service answering twice the same way. *)

From Stdlib Require Import String Ascii List Bool Arith Lia.
Import ListNotations.
Local Open Scope string_scope.
Local Open Scope list_scope.

(** ** Strings *)

Module Str.

(** Python truthiness of a [str]: only the empty string is falsy. *)
Definition truthy (s : string) : bool :=
  match s with
  | EmptyString => false
  | String _ _ => true
  end.

(** [sep.join(parts)]. *)
Fixpoint join (sep : string) (parts : list string) : string :=
  match parts with
  | [] => ""
  | [s] => s
  | s :: rest => (s ++ sep ++ join sep rest)%string
  end.

(** [sub in s] on Python strings: [sub] occurs in [s] as a contiguous run. *)
Fixpoint contains (sub s : string) : bool :=
  prefix sub s ||
  match s with
  | EmptyString => false
  | String _ s' => contains sub s'
  end.

(** The same, as a proposition. *)
Definition occurs (sub s : string) : Prop :=
  exists pre post, s = (pre ++ sub ++ post)%string.

Definition newline : string := String (ascii_of_nat 10) EmptyString.

End Str.

(** ** Values handed around by the script *)

(** A Python exception, by its message. *)
Definition Exn : Type := string.

Inductive Result (A : Type) : Type :=
| Ok (a : A)
| Err (e : Exn).
Arguments Ok {A} a.
Arguments Err {A} e.

(** A LangChain [Document]. *)
Record Document : Type := mkDocument {
  page_content : string;
  metadata : list (string * string)
}.

(** The [ChatGroq] client: the model name and the credential it was built with. *)
Record ChatModel : Type := mkChatModel {
  model_name : string;
  model_api_key : string
}.

(** The [HuggingFaceEmbeddings] object. *)
Record Embeddings : Type := mkEmbeddings {
  embedding_model_name : string
}.

(** The deserialized FAISS store: an opaque handle on the stored chunks. *)
Record VectorStore : Type := mkVectorStore {
  stored_documents : list Document
}.

(** What the widgets return in one execution of the script. *)
Record Inputs : Type := mkInputs {
  groq_api_key : string;   (* st.sidebar.text_input("Enter your GROQ API key:") *)
  condition : string;      (* st.text_input(key="condition") *)
  allergies : string;      (* st.text_input(key="allergies") *)
  button : bool            (* st.button("Get Personalized Dietary Recommendations") *)
}.

(** The external services, as they answer during one execution. *)
Record World : Type := mkWorld {
  (* ChatGroq(model=..., groq_api_key=...): [Some e] when the constructor raises *)
  chat_groq_init : string -> string -> option Exn;
  (* HuggingFaceEmbeddings(model_name=...) *)
  hf_embeddings_init : string -> option Exn;
  (* FAISS.load_local(path, embeddings=..., allow_dangerous_deserialization=True) *)
  faiss_load_local : string -> Embeddings -> Result VectorStore;
  (* retriever.invoke(query) on a store *)
  similarity_search : VectorStore -> string -> Result (list Document);
  (* the chat-completion call of the model client *)
  chat_completion : ChatModel -> string -> Result string
}.

(** ** Observable events *)

(** The texts the script puts on the page, by what they say. *)
Inductive Message : Type :=
| PageStyle                       (* the <style> block *)
| MainHeader                      (* "Koyl AI: Nutrition Advisor" banner *)
| SidebarHeader                   (* "GROQ API Configuration" *)
| SidebarKeyLink                  (* "Get your API key here" *)
| SidebarRule
| SidebarHowTo                    (* "How to Use" / "Features" *)
| MissingApiKey                   (* "Please enter your GROQ API key in the sidebar to continue." *)
| ApiKeyTip                       (* "Tip: Get your free API key from the Groq Console ..." *)
| ModelLoadFailed (e : Exn)       (* "Failed to load ChatGroq model: {e}" *)
| IndexLoadFailed (e : Exn)       (* "Failed to load FAISS index: {e}" *)
| ConditionsBox                   (* "Patient Conditions" *)
| AllergyBox                      (* "Allergy Profile" *)
| LineBreak                       (* "<br>" *)
| FillBothFields                  (* "Please fill in both condition and allergy fields to proceed." *)
| SearchingLiterature             (* spinner text of the retrieval step *)
| GeneratingAdvice                (* spinner text of the generation step *)
| Rule                            (* "---" *)
| RecommendationTitle             (* "Your Personalized Dietary Recommendations" *)
| PatientProfile (c : string)     (* "Patient Profile: {condition}" *)
| AllergiesLine (a : string)      (* "Allergies: {allergies}" *)
| RecommendationsHeading          (* "Recommendations:" *)
| MedicalDisclaimer
| Footer.

(** Page elements, by the Streamlit command that draws them. *)
Inductive Element : Type :=
| StPageConfig
| StMarkdown (m : Message)
| StError (m : Message)
| StInfo (m : Message)
| StWarning (m : Message)
| StSpinner (m : Message)
| StTextInput (key : string)
| StColumns
| StButton
| StWrite (text : string)
| StException (e : Exn).          (* the runner's box for an uncaught exception *)

Inductive Event : Type :=
| Draw (el : Element)
| NewChatGroq (model key : string)          (* model-client construction *)
| NewEmbeddings (name : string)             (* embedding-model construction *)
| LoadLocal (path : string)                 (* deserialization of the persisted index *)
| Retrieve (query : string)                 (* retrieval call *)
| Generate (m : ChatModel) (prompt : string). (* call to the generation service *)

(** ** The process store and the script monad *)

(** What [st.cache_resource] keeps for a cached call: the value returned
    and the page elements drawn while computing it, which Streamlit draws
    again on every later hit. *)
Record CacheEntry : Type := mkCacheEntry {
  cached_value : option VectorStore;
  cached_elements : list Element
}.

(** The state of the server process between executions of the script.
    [load_vectorstore] takes no argument, so its cache has one slot. *)
Record Process : Type := mkProcess {
  resource_cache : option CacheEntry
}.

Definition fresh_process : Process := {| resource_cache := None |}.

Inductive Outcome (A : Type) : Type :=
| Return (a : A)
| Stopped                  (* st.stop() *)
| Raised (e : Exn).        (* an exception propagating upwards *)
Arguments Return {A} a.
Arguments Stopped {A}.
Arguments Raised {A} e.

Definition Script (A : Type) : Type :=
  Process -> Outcome A * Process * list Event.

Definition ret {A} (a : A) : Script A :=
  fun p => (Return a, p, []).

Definition bind {A B} (m : Script A) (k : A -> Script B) : Script B :=
  fun p =>
    match m p with
    | (Return a, p1, t1) =>
        match k a p1 with
        | (o, p2, t2) => (o, p2, t1 ++ t2)
        end
    | (Stopped, p1, t1) => (Stopped, p1, t1)
    | (Raised e, p1, t1) => (Raised e, p1, t1)
    end.

Declare Scope script_scope.
Delimit Scope script_scope with script.
Notation "x <- m ;; k" := (bind m (fun x => k))
  (at level 61, m at next level, right associativity) : script_scope.
Notation "m ;; k" := (bind m (fun _ => k))
  (at level 61, right associativity) : script_scope.
Local Open Scope script_scope.

Definition emit (e : Event) : Script unit :=
  fun p => (Return tt, p, [e]).

Definition raise {A} (e : Exn) : Script A :=
  fun p => (Raised e, p, []).

(** [st.stop()]: ends the execution; it is not an [Exception], so no
    [except Exception] clause sees it. *)
Definition st_stop {A} : Script A :=
  fun p => (Stopped, p, []).

(** [try: body  except Exception as e: handler(e)]. *)
Definition try_except {A} (body : Script A) (handler : Exn -> Script A) : Script A :=
  fun p =>
    match body p with
    | (Raised e, p1, t1) =>
        match handler e p1 with
        | (o, p2, t2) => (o, p2, t1 ++ t2)
        end
    | r => r
    end.

Definition outcome_of {A} (r : Outcome A * Process * list Event) : Outcome A :=
  fst (fst r).
Definition process_of {A} (r : Outcome A * Process * list Event) : Process :=
  snd (fst r).
Definition trace_of {A} (r : Outcome A * Process * list Event) : list Event :=
  snd r.

Definition draw (el : Element) : Script unit := emit (Draw el).
Definition st_markdown (m : Message) : Script unit := draw (StMarkdown m).
Definition st_error (m : Message) : Script unit := draw (StError m).
Definition st_info (m : Message) : Script unit := draw (StInfo m).
Definition st_warning (m : Message) : Script unit := draw (StWarning m).
Definition st_spinner (m : Message) : Script unit := draw (StSpinner m).
Definition st_write (text : string) : Script unit := draw (StWrite text).

(** The page elements among the events of a trace. *)
Fixpoint elements_of (t : list Event) : list Element :=
  match t with
  | [] => []
  | Draw el :: t' => el :: elements_of t'
  | _ :: t' => elements_of t'
  end.

(** [@st.cache_resource] around a function of no argument: a hit draws the
    recorded elements again and returns the recorded value without running
    the body; a miss runs the body and records what it returned, [None]
    included.  A body that raises or stops leaves nothing in the cache. *)
Definition cache_resource (body : Script (option VectorStore))
  : Script (option VectorStore) :=
  fun p =>
    match resource_cache p with
    | Some entry => (Return (cached_value entry), p, map Draw (cached_elements entry))
    | None =>
        match body p with
        | (Return v, _, t) =>
            (Return v,
             {| resource_cache :=
                  Some {| cached_value := v; cached_elements := elements_of t |} |},
             t)
        | r => r
        end
    end.

(** ** The prompt template *)

Module Template.

(** A template string splits into literal text and replacement fields. *)
Inductive Segment : Type :=
| Lit (text : string)
| Field (name : string).

Definition snoc (s : string) (c : ascii) : string :=
  (s ++ String c EmptyString)%string.

Definition open_brace : ascii := "{"%char.
Definition close_brace : ascii := "}"%char.

(** The scanner of [str.format]: [{name}] is a field, [{{] and [}}] are
    the two braces themselves, a brace left alone is an error.
    [inside] tells whether a field is open and [acc] is the text read
    since the last boundary. *)
Fixpoint parse (inside : bool) (acc : string) (t : string)
  : option (list Segment) :=
  match t with
  | EmptyString => if inside then None else Some [Lit acc]
  | String c t' =>
      if inside then
        if Ascii.eqb c close_brace
        then option_map (cons (Field acc)) (parse false "" t')
        else parse true (snoc acc c) t'
      else if Ascii.eqb c open_brace then
        match t' with
        | String c' t'' =>
            if Ascii.eqb c' open_brace
            then parse false (snoc acc open_brace) t''
            else option_map (cons (Lit acc)) (parse true "" t')
        | EmptyString => None
        end
      else if Ascii.eqb c close_brace then
        match t' with
        | String c' t'' =>
            if Ascii.eqb c' close_brace
            then parse false (snoc acc close_brace) t''
            else None
        | EmptyString => None
        end
      else parse false (snoc acc c) t'
  end.

(** [kwargs[name]]. *)
Fixpoint lookup (name : string) (kwargs : list (string * string))
  : option string :=
  match kwargs with
  | [] => None
  | (k, v) :: rest => if String.eqb k name then Some v else lookup name rest
  end.

(** Fills the fields from [kwargs]; the values go in as they are and are
    not scanned again. *)
Fixpoint fill (segs : list Segment) (kwargs : list (string * string))
  : Result string :=
  match segs with
  | [] => Ok ""
  | Lit text :: rest =>
      match fill rest kwargs with
      | Ok s => Ok (text ++ s)%string
      | Err e => Err e
      end
  | Field name :: rest =>
      match lookup name kwargs with
      | None => Err ("KeyError: " ++ name)%string
      | Some v =>
          match fill rest kwargs with
          | Ok s => Ok (v ++ s)%string
          | Err e => Err e
          end
      end
  end.

(** [template.format] applied to the keyword arguments [kwargs]. *)
Definition format (template : string) (kwargs : list (string * string))
  : Result string :=
  match parse false "" template with
  | None => Err "ValueError: Single brace encountered in format string"
  | Some segs => fill segs kwargs
  end.

End Template.

Arguments Template.format : simpl never.

(** The text given to [ChatPromptTemplate.from_template], line by line. *)
Definition prompt : string :=
  Str.join Str.newline
    [ "";
      "You are a nutrition AI assistant that gives dietary recommendations based on peer-reviewed research.";
      "Given a patient's health condition(s) and allergy profile, provide specific and research-backed nutrition advice.";
      "Use only medically accurate, peer-reviewed information. Cite nutritional reasoning if available.";
      "";
      "Patient Condition(s): {condition}";
      "Allergies: {allergies}";
      "";
      "Context from medical literature:";
      "{context}";
      "";
      "What are the best dietary recommendations for this patient?";
      "" ].

(** [create_stuff_documents_chain] with its defaults: every document is
    rendered as its [page_content] and the renderings are joined by a
    blank line into the [context] field. *)
Definition document_separator : string := (Str.newline ++ Str.newline)%string.

Definition format_docs (docs : list Document) : string :=
  Str.join document_separator (map page_content docs).

(** The keyword arguments the chain fills the template with. *)
Definition chain_inputs (c a : string) (docs : list Document)
  : list (string * string) :=
  [ ("condition", c); ("allergies", a); ("context", format_docs docs) ].

(** [document_chain.invoke({"condition": .., "allergies": .., "context": ..})]:
    render the prompt, send it to the model, return the text of the answer.
    Nothing here catches what the model client raises. *)
Definition document_chain_invoke (w : World) (model : ChatModel)
    (c a : string) (docs : list Document) : Script string :=
  match Template.format prompt (chain_inputs c a docs) with
  | Err e => raise e
  | Ok rendered =>
      emit (Generate model rendered) ;;
      match chat_completion w model rendered with
      | Ok text => ret text
      | Err e => raise e
      end
  end.

(** ** The script *)

Definition groq_model_name : string := "Meta-Llama/Llama-4-Scout-17b-16e-Instruct".
Definition embedding_model : string := "avsolatorio/GIST-small-Embedding-v0".
Definition index_path : string := "faiss_index".

(** [ChatGroq(model=..., groq_api_key=...)]. *)
Definition ChatGroq (w : World) (name key : string) : Script ChatModel :=
  emit (NewChatGroq name key) ;;
  match chat_groq_init w name key with
  | None => ret {| model_name := name; model_api_key := key |}
  | Some e => raise e
  end.

(** [HuggingFaceEmbeddings(model_name=...)]. *)
Definition HuggingFaceEmbeddings (w : World) (name : string) : Script Embeddings :=
  emit (NewEmbeddings name) ;;
  match hf_embeddings_init w name with
  | None => ret {| embedding_model_name := name |}
  | Some e => raise e
  end.

(** [FAISS.load_local(path, embeddings=..., allow_dangerous_deserialization=True)]. *)
Definition FAISS_load_local (w : World) (path : string) (embedding : Embeddings)
  : Script VectorStore :=
  emit (LoadLocal path) ;;
  match faiss_load_local w path embedding with
  | Ok vs => ret vs
  | Err e => raise e
  end.

(** The body of [load_vectorstore], without its decorator. *)
Definition load_vectorstore_body (w : World) (embedding : Embeddings)
  : Script (option VectorStore) :=
  try_except
    (vs <- FAISS_load_local w index_path embedding ;;
     ret (Some vs))
    (fun e =>
       st_error (IndexLoadFailed e) ;;
       ret None).

Definition load_vectorstore (w : World) (embedding : Embeddings)
  : Script (option VectorStore) :=
  cache_resource (load_vectorstore_body w embedding).

(** [retriever.invoke(query)] on the retriever of a store. *)
Definition retriever_invoke (w : World) (vectorstore : VectorStore)
    (query : string) : Script (list Document) :=
  emit (Retrieve query) ;;
  match similarity_search w vectorstore query with
  | Ok docs => ret docs
  | Err e => raise e
  end.

(** Lines 10 to 123: page configuration, style, banner and sidebar. *)
Definition page_top : Script unit :=
  draw StPageConfig ;;
  st_markdown PageStyle ;;
  st_markdown MainHeader ;;
  st_markdown SidebarHeader ;;
  draw (StTextInput "groq_api_key") ;;
  st_markdown SidebarKeyLink ;;
  st_markdown SidebarRule ;;
  st_markdown SidebarHowTo.

(** Lines 180 to 211: the two text fields. *)
Definition input_section : Script unit :=
  draw StColumns ;;
  st_markdown ConditionsBox ;;
  draw (StTextInput "condition") ;;
  st_markdown AllergyBox ;;
  draw (StTextInput "allergies") ;;
  st_markdown LineBreak.

(** The query of line 218: [f"{condition} {allergies}"]. *)
Definition make_query (c a : string) : string :=
  (c ++ " " ++ a)%string.

Arguments make_query : simpl never.

(** Lines 213 to 249: what runs when the button was pressed. *)
Definition on_submit (w : World) (model : ChatModel) (vectorstore : VectorStore)
    (c a : string) : Script unit :=
  (if negb (Str.truthy c) || negb (Str.truthy a)
   then st_warning FillBothFields ;; st_stop
   else ret tt) ;;
  let query := make_query c a in
  st_spinner SearchingLiterature ;;
  retrieved_docs <- retriever_invoke w vectorstore query ;;
  st_spinner GeneratingAdvice ;;
  response <- document_chain_invoke w model c a retrieved_docs ;;
  st_markdown Rule ;;
  st_markdown RecommendationTitle ;;
  st_markdown (PatientProfile c) ;;
  st_markdown (AllergiesLine a) ;;
  st_markdown Rule ;;
  st_markdown RecommendationsHeading ;;
  st_write response ;;
  st_markdown Rule ;;
  st_info MedicalDisclaimer.

(** One execution of [app.py]. *)
Definition app_py (w : World) (i : Inputs) : Script unit :=
  page_top ;;
  (if negb (Str.truthy (groq_api_key i))
   then st_error MissingApiKey ;; st_info ApiKeyTip ;; st_stop
   else ret tt) ;;
  model <- try_except
             (ChatGroq w groq_model_name (groq_api_key i))
             (fun e => st_error (ModelLoadFailed e) ;; st_stop) ;;
  embedding <- HuggingFaceEmbeddings w embedding_model ;;
  vectorstore <- load_vectorstore w embedding ;;
  match vectorstore with
  | None => st_stop
  | Some vs =>
      input_section ;;
      draw StButton ;;
      (if button i
       then on_submit w model vs (condition i) (allergies i)
       else ret tt) ;;
      st_markdown Rule ;;
      st_markdown Footer
  end.

(** What Streamlit's script runner makes of one execution: an exception
    that reaches the top is shown on the page in an exception box, and the
    process goes on with the store as the execution left it. *)
Definition run_script (w : World) (i : Inputs) (p : Process)
  : Process * list Event :=
  match app_py w i p with
  | (Raised e, p', t) => (p', t ++ [Draw (StException e)])
  | (_, p', t) => (p', t)
  end.

(** A process lifetime: executions one after the other, each in the world
    of its moment, from the store the previous one left.  The result is
    the final store and the traces of the executions in order. *)
Fixpoint run_session (runs : list (World * Inputs)) (p : Process)
  : Process * list (list Event) :=
  match runs with
  | [] => (p, [])
  | (w, i) :: rest =>
      let (p1, t) := run_script w i p in
      let (p2, ts) := run_session rest p1 in
      (p2, t :: ts)
  end.

(** ** Stores the script can produce *)

(** The only entries [load_vectorstore] ever records: a loaded store with
    nothing drawn, or [None] together with the error box of line 153. *)
Definition recorded_by_loader (entry : CacheEntry) : bool :=
  match cached_value entry, cached_elements entry with
  | Some _, [] => true
  | None, [StError (IndexLoadFailed _)] => true
  | _, _ => false
  end.

Definition consistent (p : Process) : bool :=
  match resource_cache p with
  | None => true
  | Some entry => recorded_by_loader entry
  end.

Definition index_error (e : Exn) : Element := StError (IndexLoadFailed e).

Definition entry_loaded (vs : VectorStore) : CacheEntry :=
  {| cached_value := Some vs; cached_elements := [] |}.

Definition entry_failed (e : Exn) : CacheEntry :=
  {| cached_value := None; cached_elements := [index_error e] |}.

(** The four ways a call of [load_vectorstore] goes on a consistent store. *)
Inductive LoadCase (w : World) (embedding : Embeddings) (p : Process)
  : Outcome (option VectorStore) * Process * list Event -> Prop :=
| HitLoaded vs :
    resource_cache p = Some (entry_loaded vs) ->
    LoadCase w embedding p (Return (Some vs), p, [])
| HitFailed e :
    resource_cache p = Some (entry_failed e) ->
    LoadCase w embedding p (Return None, p, [Draw (index_error e)])
| MissLoaded vs :
    resource_cache p = None ->
    faiss_load_local w index_path embedding = Ok vs ->
    LoadCase w embedding p
      (Return (Some vs), {| resource_cache := Some (entry_loaded vs) |},
       [LoadLocal index_path])
| MissFailed e :
    resource_cache p = None ->
    faiss_load_local w index_path embedding = Err e ->
    LoadCase w embedding p
      (Return None, {| resource_cache := Some (entry_failed e) |},
       [LoadLocal index_path; Draw (index_error e)]).

(** ** Sample worlds *)

Module Sample.

Definition leaflet_fibre : Document :=
  {| page_content := "Soluble fibre lowers post-meal glucose.";
     metadata := [("source", "leaflet-12")] |}.

Definition leaflet_sodium : Document :=
  {| page_content := "Reduce sodium below 2 g per day.";
     metadata := [("source", "leaflet-31")] |}.

Definition index : VectorStore :=
  {| stored_documents := [leaflet_fibre; leaflet_sodium] |}.

(** Every service answers. *)
Definition up : World :=
  {| chat_groq_init := fun _ _ => None;
     hf_embeddings_init := fun _ => None;
     faiss_load_local := fun _ _ => Ok index;
     similarity_search := fun vs _ => Ok (stored_documents vs);
     chat_completion := fun _ _ => Ok "Prefer oats and lentils." |}.

(** The index directory is missing. *)
Definition no_index : World :=
  {| chat_groq_init := fun _ _ => None;
     hf_embeddings_init := fun _ => None;
     faiss_load_local := fun _ _ => Err "No such file or directory";
     similarity_search := fun vs _ => Ok (stored_documents vs);
     chat_completion := fun _ _ => Ok "Prefer oats and lentils." |}.

(** The client constructor rejects its arguments. *)
Definition bad_client : World :=
  {| chat_groq_init := fun _ _ => Some "validation error";
     hf_embeddings_init := fun _ => None;
     faiss_load_local := fun _ _ => Ok index;
     similarity_search := fun vs _ => Ok (stored_documents vs);
     chat_completion := fun _ _ => Ok "Prefer oats and lentils." |}.

(** The generation service refuses the call. *)
Definition rate_limited : World :=
  {| chat_groq_init := fun _ _ => None;
     hf_embeddings_init := fun _ => None;
     faiss_load_local := fun _ _ => Ok index;
     similarity_search := fun vs _ => Ok (stored_documents vs);
     chat_completion := fun _ _ => Err "429 Too Many Requests" |}.

Definition submission : Inputs :=
  {| groq_api_key := "gsk-test"; condition := "diabetes";
     allergies := "nuts"; button := true |}.

Definition no_credential : Inputs :=
  {| groq_api_key := ""; condition := "diabetes";
     allergies := "nuts"; button := true |}.

Definition no_condition : Inputs :=
  {| groq_api_key := "gsk-test"; condition := "";
     allergies := "dairy"; button := true |}.

Definition blanks : Inputs :=
  {| groq_api_key := "gsk-test"; condition := " ";
     allergies := "  "; button := true |}.

(** The client and the prompt of the sample submission. *)
Definition client : ChatModel :=
  {| model_name := groq_model_name; model_api_key := "gsk-test" |}.

Definition rendered : string :=
  Eval vm_compute in
    match Template.format prompt
            (chain_inputs "diabetes" "nuts" [leaflet_fibre; leaflet_sodium]) with
    | Ok s => s
    | Err _ => ""
    end.

(** The embedding model cannot be constructed. *)
Definition no_embeddings : World :=
  {| chat_groq_init := fun _ _ => None;
     hf_embeddings_init := fun _ => Some "model not found";
     faiss_load_local := fun _ _ => Ok index;
     similarity_search := fun vs _ => Ok (stored_documents vs);
     chat_completion := fun _ _ => Ok "Prefer oats and lentils." |}.

(** The similarity search raises. *)
Definition search_down : World :=
  {| chat_groq_init := fun _ _ => None;
     hf_embeddings_init := fun _ => None;
     faiss_load_local := fun _ _ => Ok index;
     similarity_search := fun _ _ => Err "dimension mismatch";
     chat_completion := fun _ _ => Ok "Prefer oats and lentils." |}.

(** The similarity search finds nothing. *)
Definition nothing_found : World :=
  {| chat_groq_init := fun _ _ => None;
     hf_embeddings_init := fun _ => None;
     faiss_load_local := fun _ _ => Ok index;
     similarity_search := fun _ _ => Ok [];
     chat_completion := fun _ _ => Ok "Prefer oats and lentils." |}.

(** The page is shown, the button is not pressed. *)
Definition idle : Inputs :=
  {| groq_api_key := "gsk-test"; condition := "diabetes";
     allergies := ""; button := false |}.

(** A process whose index is already in the cache. *)
Definition warm : Process :=
  {| resource_cache := Some (entry_loaded index) |}.

End Sample.

(** ** Trace predicates *)

Definition is_load (e : Event) : bool :=
  match e with LoadLocal _ => true | _ => false end.
Definition is_retrieve (e : Event) : bool :=
  match e with Retrieve _ => true | _ => false end.
Definition is_generate (e : Event) : bool :=
  match e with Generate _ _ => true | _ => false end.
Definition is_new_model (e : Event) : bool :=
  match e with NewChatGroq _ _ => true | _ => false end.
(** Every call that leaves the script: client and model construction,
    index load, retrieval and generation. *)
Definition is_external (e : Event) : bool :=
  match e with Draw _ => false | _ => true end.
Definition is_button (e : Event) : bool :=
  match e with Draw StButton => true | _ => false end.
Definition is_write (e : Event) : bool :=
  match e with Draw (StWrite _) => true | _ => false end.

Definition is_new_embeddings (e : Event) : bool :=
  match e with NewEmbeddings _ => true | _ => false end.

(** How many executions of a session had the button pressed. *)
Definition submissions (runs : list (World * Inputs)) : nat :=
  length (filter (fun r => button (snd r)) runs).

(** An external call made with the parameters the script fixes: the model
    name and the typed credential for the client, the embedding model, the
    index path, the query of this submission. *)
Definition configured (i : Inputs) (e : Event) : Prop :=
  match e with
  | Draw _ => True
  | NewChatGroq name key => name = groq_model_name /\ key = groq_api_key i
  | NewEmbeddings name => name = embedding_model
  | LoadLocal path => path = index_path
  | Retrieve q => q = make_query (condition i) (allergies i)
  | Generate m _ =>
      m = {| model_name := groq_model_name; model_api_key := groq_api_key i |}
  end.

(** Every deserialization in the trace reads from [path]. *)
Definition loads_only_from (path : string) (t : list Event) : bool :=
  forallb (fun e => match e with
                    | LoadLocal q => String.eqb q path
                    | _ => true
                    end) t.

(** No event of the trace satisfies [f]. *)
Definition never (f : Event -> bool) (t : list Event) : bool :=
  negb (existsb f t).

(** Nothing is deserialized, retrieved or generated and the submit button
    is not drawn. *)
Definition quiet (t : list Event) : bool :=
  never is_load t && never is_retrieve t && never is_generate t &&
  never is_button t.

(** How many events of the trace satisfy [f]. *)
Definition count (f : Event -> bool) (t : list Event) : nat :=
  length (filter f t).

(** * Properties *)

(** ** Strings *)

Module StrFacts.
Import Str.

Lemma truthy_false (s : string) : truthy s = false <-> s = "".
Proof. destruct s; simpl; split; congruence. Qed.

Lemma truthy_true (s : string) : truthy s = true <-> s <> "".
Proof. destruct s; simpl; split; congruence. Qed.

Lemma append_assoc (a b c : string) : ((a ++ b) ++ c = a ++ (b ++ c))%string.
Proof. induction a as [|x a IH]; simpl; [reflexivity | now rewrite IH]. Qed.

Lemma append_empty_r (a : string) : (a ++ "" = a)%string.
Proof. induction a as [|x a IH]; simpl; [reflexivity | now rewrite IH]. Qed.

Lemma prefix_iff (s1 s2 : string) :
  prefix s1 s2 = true <-> exists post, s2 = (s1 ++ post)%string.
Proof.
  revert s2; induction s1 as [|a s1 IH]; intros s2.
  - destruct s2; simpl; split; eauto.
  - destruct s2 as [|b s2]; simpl.
    + split; [discriminate | intros [post H]; discriminate].
    + destruct (ascii_dec a b) as [->|Hab].
      * rewrite IH. split; intros [post H]; exists post; congruence.
      * split; [discriminate | intros [post H]; congruence].
Qed.

Lemma contains_nil (sub : string) : contains sub "" = prefix sub "".
Proof. unfold contains. apply orb_false_r. Qed.

Lemma contains_cons (sub : string) (c : ascii) (s : string) :
  contains sub (String c s) = prefix sub (String c s) || contains sub s.
Proof. reflexivity. Qed.

Lemma contains_occurs (sub s : string) :
  contains sub s = true <-> occurs sub s.
Proof.
  split.
  - induction s as [|c s IH].
    + rewrite contains_nil. intros H.
      apply prefix_iff in H as [post H]. now exists "", post.
    + rewrite contains_cons, orb_true_iff. intros [H|H].
      * apply prefix_iff in H as [post H]. now exists "", post.
      * destruct (IH H) as (pre & post & ->). now exists (String c pre), post.
  - intros (pre & post & ->). induction pre as [|c pre IH].
    + assert (P : prefix sub (sub ++ post) = true)
        by (apply prefix_iff; now exists post).
      change ("" ++ sub ++ post)%string with (sub ++ post)%string.
      destruct (sub ++ post)%string.
      * now rewrite contains_nil.
      * now rewrite contains_cons, P.
    + change (String c pre ++ sub ++ post)%string
        with (String c (pre ++ sub ++ post)).
      rewrite contains_cons, IH. apply orb_true_r.
Qed.

Lemma occurs_refl (s : string) : occurs s s.
Proof. exists "", "". simpl. now rewrite append_empty_r. Qed.

Lemma occurs_append_l (sub a b : string) : occurs sub a -> occurs sub (a ++ b).
Proof.
  intros (pre & post & ->). exists pre, (post ++ b)%string.
  now rewrite !append_assoc.
Qed.

Lemma occurs_append_r (sub a b : string) : occurs sub b -> occurs sub (a ++ b).
Proof.
  intros (pre & post & ->). exists (a ++ pre)%string, post.
  now rewrite !append_assoc.
Qed.

Lemma occurs_trans (a b c : string) : occurs a b -> occurs b c -> occurs a c.
Proof.
  intros (p1 & q1 & ->) (p2 & q2 & ->).
  exists (p2 ++ p1)%string, (q1 ++ q2)%string. now rewrite !append_assoc.
Qed.

(** Every part of a [join] occurs in the result. *)
Lemma occurs_join (sep x : string) (parts : list string) :
  In x parts -> occurs x (join sep parts).
Proof.
  induction parts as [|y parts IH]; [contradiction|].
  intros [->|Hin].
  - destruct parts; simpl; [apply occurs_refl|].
    apply occurs_append_l, occurs_refl.
  - destruct parts as [|z parts]; [contradiction|].
    change (join sep (y :: z :: parts))
      with (y ++ sep ++ join sep (z :: parts))%string.
    now apply occurs_append_r, occurs_append_r, IH.
Qed.

End StrFacts.

(** ** The rendered prompt *)

Module PromptFacts.
Import Str StrFacts Template.

(** The template of the script has exactly three fields, in this order. *)
Lemma prompt_segments :
  exists l0 l1 l2 l3,
    parse false "" prompt =
    Some [Lit l0; Field "condition"; Lit l1; Field "allergies";
          Lit l2; Field "context"; Lit l3].
Proof. do 4 eexists. vm_compute. reflexivity. Qed.

Lemma format_prompt (c a : string) (docs : list Document) :
  exists l0 l1 l2 l3,
    format prompt (chain_inputs c a docs) =
    Ok (l0 ++ c ++ l1 ++ a ++ l2 ++ format_docs docs ++ l3 ++ "")%string.
Proof.
  destruct prompt_segments as (l0 & l1 & l2 & l3 & H).
  exists l0, l1, l2, l3. unfold format. rewrite H. reflexivity.
Qed.

(** Rendering never fails on the inputs the chain builds. *)
Lemma format_prompt_ok (c a : string) (docs : list Document) :
  exists rendered, format prompt (chain_inputs c a docs) = Ok rendered.
Proof. destruct (format_prompt c a docs) as (? & ? & ? & ? & H); eauto. Qed.

Lemma occurs_page_content (d : Document) (docs : list Document) :
  In d docs -> occurs (page_content d) (format_docs docs).
Proof. intros H. apply occurs_join, in_map, H. Qed.

Lemma rendered_mentions (c a : string) (docs : list Document) (rendered : string) :
  format prompt (chain_inputs c a docs) = Ok rendered ->
  occurs c rendered /\ occurs a rendered /\
  occurs (format_docs docs) rendered.
Proof.
  destruct (format_prompt c a docs) as (l0 & l1 & l2 & l3 & H).
  rewrite H. intros [= <-]. repeat split.
  - apply occurs_append_r, occurs_append_l, occurs_refl.
  - do 3 apply occurs_append_r. apply occurs_append_l, occurs_refl.
  - do 5 apply occurs_append_r. apply occurs_append_l, occurs_refl.
Qed.

End PromptFacts.

(** ** Executions of the script *)

Lemma never_app (f : Event -> bool) (t1 t2 : list Event) :
  never f (t1 ++ t2) = never f t1 && never f t2.
Proof. unfold never. now rewrite existsb_app, negb_orb. Qed.

Lemma never_draws (f : Event -> bool) (els : list Element) :
  (forall el, f (Draw el) = false) -> never f (map Draw els) = true.
Proof.
  intros H. unfold never. induction els as [|el els IH]; simpl; [reflexivity|].
  now rewrite H.
Qed.

Lemma count_app (f : Event -> bool) (t1 t2 : list Event) :
  count f (t1 ++ t2) = count f t1 + count f t2.
Proof. unfold count. now rewrite filter_app, length_app. Qed.

Lemma count_draws (f : Event -> bool) (els : list Element) :
  (forall el, f (Draw el) = false) -> count f (map Draw els) = 0.
Proof.
  intros H. unfold count. induction els as [|el els IH]; simpl; [reflexivity|].
  now rewrite H.
Qed.

Lemma In_draws (e : Event) (els : list Element) :
  In e (map Draw els) -> exists el, e = Draw el.
Proof. rewrite in_map_iff. intros (el & <- & _). eauto. Qed.

(** Unfolds one execution down to the calls of the index loader. *)
Ltac unfold_script :=
  cbv [app_py run_script on_submit page_top input_section
       ChatGroq HuggingFaceEmbeddings retriever_invoke document_chain_invoke
       try_except bind ret emit raise st_stop
       draw st_markdown st_error st_info st_warning st_spinner st_write
       outcome_of process_of trace_of fst snd].

(** Unfolds the index loader down to the answers of the world. *)
Ltac unfold_loader :=
  cbv [load_vectorstore cache_resource load_vectorstore_body FAISS_load_local
       try_except bind ret emit raise st_error draw
       outcome_of process_of trace_of fst snd].

(** Splits on the next answer the execution depends on. *)
Ltac split_step :=
  match goal with
  | |- context [match ?x with _ => _ end] =>
      lazymatch x with
      | context [match _ with _ => _ end] => fail
      | _ => destruct x eqn:?
      end
  | |- context [if ?x then _ else _] =>
      lazymatch x with
      | context [if _ then _ else _] => fail
      | _ => destruct x eqn:?
      end
  end.

Ltac split_script := repeat split_step.

(** Takes apart a hypothesis that an event is in a trace. *)
Ltac in_trace :=
  repeat match goal with
         | H : In _ (_ ++ _) |- _ => apply in_app_or in H; destruct H as [H|H]
         | H : In _ (map Draw _) |- _ =>
             apply In_draws in H; destruct H as [? H]; try discriminate H
         | H : In _ (_ :: _) |- _ => destruct H as [H|H]; [try discriminate H|]
         | H : In _ [] |- _ => destruct H
         end.

(** Finds an event in a trace. *)
Ltac in_goal :=
  cbn [List.app];
  solve [ repeat first [ apply in_eq | apply in_cons | apply in_or_app; right ] ].

(** Checks that no event of a trace is of some kind. *)
Ltac never_trace :=
  repeat rewrite never_app;
  repeat (rewrite never_draws by reflexivity);
  reflexivity.

(** *** The index loader *)

Lemma consistent_entry (p : Process) (entry : CacheEntry) :
  consistent p = true ->
  resource_cache p = Some entry ->
  (exists vs, entry = entry_loaded vs) \/ (exists e, entry = entry_failed e).
Proof.
  unfold consistent, recorded_by_loader. intros H Hp. rewrite Hp in H.
  destruct entry as [[vs|] els]; simpl in H.
  - destruct els; [|discriminate]. left. now exists vs.
  - destruct els as [|[] els]; try discriminate.
    destruct m; try discriminate. destruct els; [|discriminate].
    right. now exists e.
Qed.

Lemma load_vectorstore_cases (w : World) (embedding : Embeddings) (p : Process) :
  consistent p = true ->
  LoadCase w embedding p (load_vectorstore w embedding p).
Proof.
  intros Hc.
  unfold load_vectorstore, cache_resource.
  destruct (resource_cache p) as [entry|] eqn:Hp.
  - destruct (consistent_entry p entry Hc Hp) as [[vs ->]|[e ->]].
    + now apply HitLoaded.
    + now apply HitFailed.
  - unfold load_vectorstore_body, try_except, FAISS_load_local, bind, emit, ret, raise.
    destruct (faiss_load_local w index_path embedding) as [vs|e] eqn:Hl; simpl.
    + now apply MissLoaded.
    + now apply MissFailed.
Qed.

(** Case analysis on the loader for a consistent store, then on every
    other answer the execution depends on. *)
Ltac script_cases w p Hc :=
  let L := fresh "L" in
  let r := fresh "r" in
  let E := fresh "E" in
  pose proof (load_vectorstore_cases w
                {| embedding_model_name := embedding_model |} p Hc) as L;
  remember (load_vectorstore w {| embedding_model_name := embedding_model |} p)
    as r eqn:E in L;
  destruct L; symmetry in E;
  unfold_script;
  repeat first [ rewrite E; cbv beta iota | split_step ].

Lemma validation_rejects (c a : string) :
  c = "" \/ a = "" <-> negb (Str.truthy c) || negb (Str.truthy a) = true.
Proof.
  rewrite orb_true_iff, !negb_true_iff, !StrFacts.truthy_false. tauto.
Qed.

Lemma validation_accepts (c a : string) :
  c <> "" /\ a <> "" <-> negb (Str.truthy c) || negb (Str.truthy a) = false.
Proof.
  rewrite orb_false_iff, !negb_false_iff, !StrFacts.truthy_true. tauto.
Qed.

Lemma credential_present (k : string) :
  k <> "" <-> negb (Str.truthy k) = false.
Proof. now rewrite negb_false_iff, StrFacts.truthy_true. Qed.

(** *** The configuration gate *)

(** C3. When the credential is the empty string the execution shows the
    missing-credential error and stops: no model client is built, the index
    is not loaded, no call leaves the script, and the process store is as
    it was. *)
Theorem missing_credential_halts (w : World) (i : Inputs) (p : Process) :
  groq_api_key i = "" ->
  outcome_of (app_py w i p) = Stopped /\
  In (Draw (StError MissingApiKey)) (snd (run_script w i p)) /\
  never is_new_model (snd (run_script w i p)) = true /\
  never is_load (snd (run_script w i p)) = true /\
  never is_external (snd (run_script w i p)) = true /\
  fst (run_script w i p) = p.
Proof.
  intros H. unfold_script. rewrite H. cbn.
  repeat split; auto 12.
Qed.

Lemma missing_credential_halts_sample :
  groq_api_key Sample.no_credential = "" /\
  outcome_of (app_py Sample.up Sample.no_credential fresh_process) = Stopped /\
  never is_external
    (snd (run_script Sample.up Sample.no_credential fresh_process)) = true.
Proof.
  split; [reflexivity|].
  pose proof (missing_credential_halts Sample.up Sample.no_credential
                fresh_process eq_refl) as H.
  split; apply H.
Defined.

(** *** Input validation *)

(** C2. With an empty condition or an empty allergies string no execution
    calls the retriever or the generation service; and when the button was
    on the page and pressed, the execution shows the validation warning,
    stops there and writes no response. *)
Theorem empty_field_blocks_submission (w : World) (i : Inputs) (p : Process) :
  consistent p = true ->
  condition i = "" \/ allergies i = "" ->
  never is_retrieve (snd (run_script w i p)) = true /\
  never is_generate (snd (run_script w i p)) = true /\
  (button i = true ->
   In (Draw StButton) (snd (run_script w i p)) ->
   In (Draw (StWarning FillBothFields)) (snd (run_script w i p)) /\
   outcome_of (app_py w i p) = Stopped /\
   never is_write (snd (run_script w i p)) = true).
Proof.
  intros Hc H. apply validation_rejects in H.
  script_cases w p Hc.
  all: try congruence.
  all: split; [never_trace | split; [never_trace | intros Hb Hin]].
  all: try discriminate Hb; cbn [List.app] in Hin; in_trace.
  all: split; [in_goal | split; [reflexivity | never_trace]].
Qed.

Lemma empty_field_blocks_submission_sample :
  consistent Sample.warm = true /\
  (condition Sample.no_condition = "" \/ allergies Sample.no_condition = "") /\
  never is_retrieve (snd (run_script Sample.up Sample.no_condition Sample.warm)) = true /\
  never is_generate (snd (run_script Sample.up Sample.no_condition Sample.warm)) = true /\
  In (Draw (StWarning FillBothFields))
    (snd (run_script Sample.up Sample.no_condition Sample.warm)).
Proof.
  split; [reflexivity|]. split; [left; reflexivity|].
  destruct (empty_field_blocks_submission Sample.up Sample.no_condition
              Sample.warm eq_refl (or_introl eq_refl)) as (Hr & Hg & Hw).
  split; [exact Hr|]. split; [exact Hg|].
  apply Hw; [reflexivity | vm_compute; tauto].
Defined.

(** *** The query *)

(** The query of a retrieval call is the condition, one space, the
    allergies. *)
Lemma query_of_retrieval (w : World) (i : Inputs) (p : Process) (q : string) :
  In (Retrieve q) (snd (run_script w i p)) ->
  q = make_query (condition i) (allergies i).
Proof.
  unfold_script. unfold_loader. split_script.
  all: cbn [List.app]; intros Hin; in_trace.
  all: congruence.
Qed.

(** C6, as amended. The query string of every retrieval call is the
    condition text, then a single space, then the allergy text. *)
Theorem query_joins_with_space (w : World) (i : Inputs) (p : Process) (q : string) :
  In (Retrieve q) (snd (run_script w i p)) ->
  q = (condition i ++ " " ++ allergies i)%string.
Proof. apply query_of_retrieval. Qed.

Lemma query_joins_with_space_sample :
  In (Retrieve "diabetes nuts")
    (snd (run_script Sample.up Sample.submission fresh_process)) /\
  "diabetes nuts" =
  (condition Sample.submission ++ " " ++ allergies Sample.submission)%string.
Proof.
  assert (H : In (Retrieve "diabetes nuts")
                (snd (run_script Sample.up Sample.submission fresh_process)))
    by (vm_compute; tauto).
  split; [exact H|].
  exact (query_joins_with_space Sample.up Sample.submission fresh_process
           "diabetes nuts" H).
Defined.

(** C6, as stated, fails: the sample submission queries the retriever with
    a string that is not the plain concatenation of its condition and its
    allergies. *)
Lemma query_is_not_plain_concatenation :
  In (Retrieve "diabetes nuts")
    (snd (run_script Sample.up Sample.submission fresh_process)) /\
  "diabetes nuts" <>
  (condition Sample.submission ++ allergies Sample.submission)%string.
Proof.
  split; [vm_compute; tauto | discriminate].
Qed.

(** *** The prompt *)

(** C1. Whenever an execution calls the generation service, the prompt it
    sends is the rendering of the fixed template on this submission's
    condition, allergies and retrieved documents, the retrieved documents
    being what the retriever returned for this submission's query on the
    loaded index; and that prompt contains the condition string, the
    allergies string and the text of every retrieved document. *)
Theorem prompt_carries_inputs (w : World) (i : Inputs) (p : Process)
    (m : ChatModel) (rendered : string) :
  In (Generate m rendered) (snd (run_script w i p)) ->
  exists vs docs,
    outcome_of (load_vectorstore w {| embedding_model_name := embedding_model |} p)
      = Return (Some vs) /\
    similarity_search w vs (make_query (condition i) (allergies i)) = Ok docs /\
    Template.format prompt (chain_inputs (condition i) (allergies i) docs)
      = Ok rendered /\
    Str.contains (condition i) rendered = true /\
    Str.contains (allergies i) rendered = true /\
    Forall (fun d => Str.contains (page_content d) rendered = true) docs.
Proof.
  assert (K : forall vs docs,
             similarity_search w vs (make_query (condition i) (allergies i)) = Ok docs ->
             Template.format prompt (chain_inputs (condition i) (allergies i) docs)
               = Ok rendered ->
             similarity_search w vs (make_query (condition i) (allergies i)) = Ok docs /\
             Template.format prompt (chain_inputs (condition i) (allergies i) docs)
               = Ok rendered /\
             Str.contains (condition i) rendered = true /\
             Str.contains (allergies i) rendered = true /\
             Forall (fun d => Str.contains (page_content d) rendered = true) docs).
  { intros vs docs Hs Hf.
    destruct (PromptFacts.rendered_mentions _ _ _ _ Hf) as (Hc & Ha & Hd).
    repeat split; try assumption; try (now apply StrFacts.contains_occurs).
    apply Forall_forall. intros d Hin. apply StrFacts.contains_occurs.
    eapply StrFacts.occurs_trans; [|exact Hd].
    now apply PromptFacts.occurs_page_content. }
  unfold_script. unfold_loader. split_script.
  all: cbn [List.app]; intros Hin; in_trace.
  all: injection Hin as <- <-; do 2 eexists; (split; [reflexivity|]).
  all: eapply K; eassumption.
Qed.

(** *** Submissions that pass validation *)

(** The template renders on every input, so this branch is dead. *)
Ltac no_format_error :=
  match goal with
  | H : Template.format prompt (chain_inputs ?c ?a ?d) = Err _ |- _ =>
      destruct (PromptFacts.format_prompt_ok c a d) as [? ?]; congruence
  end.

(** C9, as amended. On a submission (the button was on the page and
    pressed) the validation warning appears exactly when the condition or
    the allergies string is the empty string.  When both are non-empty,
    whatever their characters, the retriever is called on the loaded index
    with the query of this submission; when that call returns documents,
    the generation service is called with the template rendered on them;
    when it raises, the execution ends with that exception and the
    generation service is not called. *)
Theorem filled_fields_pass_validation (w : World) (i : Inputs) (p : Process) :
  consistent p = true ->
  button i = true ->
  In (Draw StButton) (snd (run_script w i p)) ->
  (In (Draw (StWarning FillBothFields)) (snd (run_script w i p)) <->
   condition i = "" \/ allergies i = "") /\
  (condition i <> "" -> allergies i <> "" ->
   In (Retrieve (make_query (condition i) (allergies i))) (snd (run_script w i p)) /\
   exists vs,
     outcome_of (load_vectorstore w {| embedding_model_name := embedding_model |} p)
       = Return (Some vs) /\
     (forall docs,
         similarity_search w vs (make_query (condition i) (allergies i)) = Ok docs ->
         exists rendered,
           Template.format prompt (chain_inputs (condition i) (allergies i) docs)
             = Ok rendered /\
           In (Generate {| model_name := groq_model_name;
                           model_api_key := groq_api_key i |} rendered)
             (snd (run_script w i p))) /\
     (forall e,
         similarity_search w vs (make_query (condition i) (allergies i)) = Err e ->
         outcome_of (app_py w i p) = Raised e /\
         never is_generate (snd (run_script w i p)) = true)).
Proof.
  intros Hc Hb.
  script_cases w p Hc.
  all: try congruence; try no_format_error.
  all: cbn [List.app]; intros Hin; in_trace.
  all: match goal with
       | H : _ || _ = true |- _ =>
           pose proof (proj2 (validation_rejects _ _) H) as Hv
       | H : _ || _ = false |- _ =>
           pose proof (proj2 (validation_accepts _ _) H) as Hv
       end.
  all: split; [split; [intros Hw; try exact Hv; in_trace | intros Hw; try in_goal; tauto ]
              | intros Hnc Hna; try tauto ].
  all: split; [in_goal|].
  all: eexists; split; [reflexivity|].
  all: split; [intros docs Hs | intros e' Hs]; try congruence.
  all: try (replace docs with a in * by congruence;
            eexists; split;
              [match goal with
               | H : Template.format prompt _ = Ok _ |- _ => exact H
               end
              | in_goal]).
  all: replace e' with e by congruence.
  all: split; [reflexivity | never_trace].
Qed.

(** *** Initialization failures *)

(** C4. With a credential present, when the constructor of the model
    client raises, or when it succeeds and the first deserialization of the
    index raises, the execution shows the matching error, stops right
    after it, and the page has no submit button: no retrieval, no
    generation and no response happen in that execution. *)
Theorem init_failure_halts (w : World) (i : Inputs) (p : Process)
    (e : Exn) (msg : Message) :
  groq_api_key i <> "" ->
  (chat_groq_init w groq_model_name (groq_api_key i) = Some e /\
   msg = ModelLoadFailed e) \/
  (chat_groq_init w groq_model_name (groq_api_key i) = None /\
   hf_embeddings_init w embedding_model = None /\
   resource_cache p = None /\
   faiss_load_local w index_path {| embedding_model_name := embedding_model |}
     = Err e /\
   msg = IndexLoadFailed e) ->
  outcome_of (app_py w i p) = Stopped /\
  In (Draw (StError msg)) (snd (run_script w i p)) /\
  last (snd (run_script w i p)) (Draw StPageConfig) = Draw (StError msg) /\
  never is_button (snd (run_script w i p)) = true /\
  never is_retrieve (snd (run_script w i p)) = true /\
  never is_generate (snd (run_script w i p)) = true /\
  never is_write (snd (run_script w i p)) = true.
Proof.
  intros Hk H. apply credential_present in Hk.
  unfold_script. unfold_loader.
  destruct H as [[Hm ->] | (Hm & He & Hp & Hl & ->)].
  - rewrite Hk, Hm. cbn. repeat split; auto 12.
  - rewrite Hk, Hm, He, Hp, Hl. cbn. repeat split; auto 14.
Qed.

Lemma init_failure_halts_sample :
  groq_api_key Sample.submission <> "" /\
  chat_groq_init Sample.no_index groq_model_name (groq_api_key Sample.submission)
    = None /\
  faiss_load_local Sample.no_index index_path
    {| embedding_model_name := embedding_model |}
    = Err "No such file or directory" /\
  outcome_of (app_py Sample.no_index Sample.submission fresh_process) = Stopped /\
  never is_button
    (snd (run_script Sample.no_index Sample.submission fresh_process)) = true.
Proof.
  assert (Hk : groq_api_key Sample.submission <> "") by discriminate.
  split; [exact Hk|]. split; [reflexivity|]. split; [reflexivity|].
  pose proof (init_failure_halts Sample.no_index Sample.submission fresh_process
                "No such file or directory"
                (IndexLoadFailed "No such file or directory") Hk
                (or_intror (conj eq_refl (conj eq_refl (conj eq_refl
                   (conj eq_refl eq_refl)))))) as H.
  split; apply H.
Defined.

(** *** The store across executions *)

(** An execution on a store whose cache is filled leaves the store alone
    and deserializes nothing. *)
Lemma run_script_hit (w : World) (i : Inputs) (p : Process) (c : CacheEntry) :
  resource_cache p = Some c ->
  fst (run_script w i p) = p /\ count is_load (snd (run_script w i p)) = 0.
Proof.
  intros Hp. unfold_script. unfold_loader. split_script.
  all: try congruence.
  all: split; [reflexivity|].
  all: repeat rewrite count_app; rewrite ?count_draws by reflexivity; reflexivity.
Qed.

(** An execution on an empty cache either never gets to the loader, or
    deserializes once and leaves the cache filled. *)
Lemma run_script_miss (w : World) (i : Inputs) (p : Process) :
  resource_cache p = None ->
  (fst (run_script w i p) = p /\ count is_load (snd (run_script w i p)) = 0) \/
  (resource_cache (fst (run_script w i p)) <> None /\
   count is_load (snd (run_script w i p)) = 1).
Proof.
  intros Hp. unfold_script. unfold_loader. split_script.
  all: try congruence.
  all: first [ left; split; reflexivity | right; split; [discriminate | reflexivity] ].
Qed.

Lemma run_script_path (w : World) (i : Inputs) (p : Process) :
  loads_only_from index_path (snd (run_script w i p)) = true.
Proof.
  unfold_script. unfold_loader. split_script.
  all: unfold loads_only_from; repeat rewrite forallb_app.
  all: repeat match goal with
         | |- context [forallb ?f (map Draw ?l)] =>
             replace (forallb f (map Draw l)) with true
               by (symmetry; apply forallb_forall;
                   intros ? [? [<- _]]%in_map_iff; reflexivity)
         end.
  all: reflexivity.
Qed.

Lemma run_session_loads (runs : list (World * Inputs)) (p : Process) :
  count is_load (concat (snd (run_session runs p))) <=
  match resource_cache p with Some _ => 0 | None => 1 end.
Proof.
  revert p. induction runs as [|[w i] runs IH]; intros p.
  - simpl. destruct (resource_cache p); unfold count; simpl; lia.
  - simpl. destruct (run_script w i p) as [p1 t] eqn:Hrun.
    specialize (IH p1).
    destruct (run_session runs p1) as [p2 ts]. simpl in *.
    rewrite count_app.
    destruct (resource_cache p) as [c|] eqn:Hp.
    + destruct (run_script_hit w i p c Hp) as [Hs Hn].
      rewrite Hrun in Hs, Hn. simpl in Hs, Hn. subst p1.
      rewrite Hp in IH. lia.
    + destruct (run_script_miss w i p Hp) as [[Hs Hn]|[Hs Hn]];
        rewrite Hrun in Hs, Hn; simpl in Hs, Hn.
      * subst p1. rewrite Hp in IH. lia.
      * destruct (resource_cache p1); [lia | congruence].
Qed.

Lemma run_session_path (runs : list (World * Inputs)) (p : Process) :
  loads_only_from index_path (concat (snd (run_session runs p))) = true.
Proof.
  revert p. induction runs as [|[w i] runs IH]; intros p; [reflexivity|].
  simpl. pose proof (run_script_path w i p) as Ht.
  destruct (run_script w i p) as [p1 t]. specialize (IH p1).
  destruct (run_session runs p1) as [p2 ts]. simpl in *.
  unfold loads_only_from in *. now rewrite forallb_app, Ht, IH.
Qed.

(** The loader always returns, and a second call gets what the first got. *)
Lemma load_vectorstore_again (w1 : World) (e1 : Embeddings) (p : Process)
    (w2 : World) (e2 : Embeddings) :
  exists v els,
    outcome_of (load_vectorstore w1 e1 p) = Return v /\
    load_vectorstore w2 e2 (process_of (load_vectorstore w1 e1 p)) =
    (Return v, process_of (load_vectorstore w1 e1 p), map Draw els).
Proof.
  unfold_loader.
  destruct (resource_cache p) as [c|] eqn:Hp.
  - exists (cached_value c), (cached_elements c). now rewrite Hp.
  - destruct (faiss_load_local w1 index_path e1) as [vs|e].
    + exists (Some vs), []. split; reflexivity.
    + exists None, [index_error e]. split; reflexivity.
Qed.

(** C8. Over any sequence of executions of a process that starts with an
    empty cache, the persisted index is deserialized at most once, and only
    from the fixed path; and whatever call of the loader comes after
    another returns the value the earlier one returned, leaves the store
    as it is and logs page elements only, hence no deserialization. *)
Theorem index_loaded_at_most_once :
  (forall runs : list (World * Inputs),
      count is_load (concat (snd (run_session runs fresh_process))) <= 1 /\
      loads_only_from index_path
        (concat (snd (run_session runs fresh_process))) = true) /\
  (forall (w1 : World) (e1 : Embeddings) (p : Process)
          (w2 : World) (e2 : Embeddings),
      exists v els,
        outcome_of (load_vectorstore w1 e1 p) = Return v /\
        load_vectorstore w2 e2 (process_of (load_vectorstore w1 e1 p)) =
        (Return v, process_of (load_vectorstore w1 e1 p), map Draw els) /\
        never is_load (map Draw els) = true).
Proof.
  split.
  - intros runs. split.
    + apply (run_session_loads runs fresh_process).
    + apply run_session_path.
  - intros w1 e1 p w2 e2.
    destruct (load_vectorstore_again w1 e1 p w2 e2) as (v & els & H1 & H2).
    exists v, els. repeat split; try assumption.
    now apply never_draws.
Qed.

(** Executions keep the store consistent. *)
Lemma run_script_consistent (w : World) (i : Inputs) (p : Process) :
  consistent p = true -> consistent (fst (run_script w i p)) = true.
Proof.
  intros Hc.
  destruct (resource_cache p) as [c|] eqn:Hp.
  - destruct (run_script_hit w i p c Hp) as [-> _]. exact Hc.
  - clear Hc. unfold_script. unfold_loader. split_script.
    all: try congruence.
    all: first [ assumption | reflexivity | unfold consistent; now rewrite Hp ].
Qed.

Lemma run_session_consistent (runs : list (World * Inputs)) (p : Process) :
  consistent p = true -> consistent (fst (run_session runs p)) = true.
Proof.
  revert p. induction runs as [|[w i] runs IH]; intros p Hc; [exact Hc|].
  simpl. pose proof (run_script_consistent w i p Hc) as H1.
  destruct (run_script w i p) as [p1 t]. specialize (IH p1 H1).
  now destruct (run_session runs p1).
Qed.

(** *** A failed load stays *)

(** An execution on a store that recorded a failed load: the store stays,
    nothing is deserialized, retrieved or generated, and the page gets no
    submit button. *)
Lemma run_script_after_failed_load (w : World) (i : Inputs) (p : Process) (e : Exn) :
  resource_cache p = Some (entry_failed e) ->
  fst (run_script w i p) = p /\
  quiet (snd (run_script w i p)) = true.
Proof.
  destruct p as [[c|]]; cbn [resource_cache]; intros Hp;
    [injection Hp as -> | discriminate Hp].
  unfold_script. unfold_loader.
  repeat first
    [ progress cbn [resource_cache cached_value cached_elements entry_failed]
    | split_step ].
  all: split; reflexivity.
Qed.

Lemma run_session_after_failed_load (runs : list (World * Inputs)) (p : Process)
    (e : Exn) :
  resource_cache p = Some (entry_failed e) ->
  fst (run_session runs p) = p /\
  forallb quiet (snd (run_session runs p)) = true.
Proof.
  intros Hp. induction runs as [|[w i] runs IH]; [split; reflexivity|].
  simpl. destruct (run_script_after_failed_load w i p e Hp) as [Hs Hq].
  destruct (run_script w i p) as [p1 t]. simpl in Hs, Hq. subst p1.
  destruct (run_session runs p) as [p2 ts]. simpl in *.
  destruct IH as [-> Hts]. now rewrite Hq, Hts.
Qed.

(** C10. When the first deserialization of a process raises, the store
    records the failure ([None] with its error box).  From then on the
    store never changes, and no execution, in whatever world, deserializes
    again, retrieves, generates or shows the submit button; an execution
    that gets past the credential, the model client and the embeddings
    stops at the index check. *)
Theorem failed_load_is_cached (w : World) (i : Inputs) (p : Process) (e : Exn) :
  resource_cache p = None ->
  groq_api_key i <> "" ->
  chat_groq_init w groq_model_name (groq_api_key i) = None ->
  hf_embeddings_init w embedding_model = None ->
  faiss_load_local w index_path {| embedding_model_name := embedding_model |}
    = Err e ->
  resource_cache (fst (run_script w i p)) = Some (entry_failed e) /\
  (forall runs : list (World * Inputs),
      fst (run_session runs (fst (run_script w i p))) = fst (run_script w i p) /\
      forallb quiet (snd (run_session runs (fst (run_script w i p)))) = true) /\
  (forall (w' : World) (i' : Inputs),
      groq_api_key i' <> "" ->
      chat_groq_init w' groq_model_name (groq_api_key i') = None ->
      hf_embeddings_init w' embedding_model = None ->
      outcome_of (app_py w' i' (fst (run_script w i p))) = Stopped).
Proof.
  intros Hp Hk Hm He Hl.
  assert (H1 : resource_cache (fst (run_script w i p)) = Some (entry_failed e)).
  { apply credential_present in Hk.
    unfold_script. unfold_loader. rewrite Hk, Hm, He, Hp, Hl. reflexivity. }
  split; [exact H1|]. split.
  - intros runs. now apply run_session_after_failed_load with (e := e).
  - intros w' i' Hk' Hm' He'. apply credential_present in Hk'.
    generalize dependent (fst (run_script w i p)). intros p1 H1.
    unfold_script. unfold_loader. rewrite Hk', Hm', He', H1. reflexivity.
Qed.

Lemma failed_load_is_cached_sample :
  resource_cache fresh_process = None /\
  groq_api_key Sample.submission <> "" /\
  faiss_load_local Sample.no_index index_path
    {| embedding_model_name := embedding_model |}
    = Err "No such file or directory" /\
  fst (run_session [(Sample.up, Sample.submission); (Sample.up, Sample.submission)]
         (fst (run_script Sample.no_index Sample.submission fresh_process)))
  = fst (run_script Sample.no_index Sample.submission fresh_process) /\
  outcome_of (app_py Sample.up Sample.submission
                (fst (run_script Sample.no_index Sample.submission fresh_process)))
  = Stopped.
Proof.
  assert (Hk : groq_api_key Sample.submission <> "") by discriminate.
  split; [reflexivity|]. split; [exact Hk|]. split; [reflexivity|].
  destruct (failed_load_is_cached Sample.no_index Sample.submission fresh_process
              "No such file or directory" eq_refl Hk eq_refl eq_refl eq_refl)
    as (_ & Hruns & Hnext).
  split.
  - apply Hruns.
  - apply Hnext; [exact Hk | reflexivity | reflexivity].
Defined.

(** *** Submissions *)

(** A submission on a loaded index whose every external call answers is
    served: the response is written and the store stays as it was. *)
Lemma submission_served (w : World) (i : Inputs) (p : Process)
    (vs : VectorStore) (docs : list Document) (rendered r : string) :
  resource_cache p = Some (entry_loaded vs) ->
  groq_api_key i <> "" ->
  chat_groq_init w groq_model_name (groq_api_key i) = None ->
  hf_embeddings_init w embedding_model = None ->
  button i = true ->
  condition i <> "" ->
  allergies i <> "" ->
  similarity_search w vs (make_query (condition i) (allergies i)) = Ok docs ->
  Template.format prompt (chain_inputs (condition i) (allergies i) docs)
    = Ok rendered ->
  chat_completion w
    {| model_name := groq_model_name; model_api_key := groq_api_key i |} rendered
    = Ok r ->
  outcome_of (app_py w i p) = Return tt /\
  fst (run_script w i p) = p /\
  In (Draw (StWrite r)) (snd (run_script w i p)).
Proof.
  destruct p as [[c|]]; cbn [resource_cache]; intros Hp;
    [injection Hp as -> | discriminate Hp].
  intros Hk Hm He Hb Hc Ha Hs Hf Hr.
  apply credential_present in Hk.
  pose proof (proj1 (validation_accepts _ _) (conj Hc Ha)) as Hv.
  unfold_script. unfold_loader.
  repeat first
    [ progress cbn [resource_cache cached_value cached_elements entry_loaded]
    | rewrite Hk | rewrite Hm | rewrite He | rewrite Hb | rewrite Hv
    | rewrite Hs | rewrite Hf | rewrite Hr ].
  split; [reflexivity|]. split; [reflexivity|]. in_goal.
Qed.

(** What a failed generation call does to its own execution. *)
Lemma generation_failure_aborts (w : World) (i : Inputs) (p : Process)
    (m : ChatModel) (rendered : string) (e : Exn) :
  consistent p = true ->
  In (Generate m rendered) (trace_of (app_py w i p)) ->
  chat_completion w m rendered = Err e ->
  outcome_of (app_py w i p) = Raised e /\
  last (snd (run_script w i p)) (Draw StPageConfig) = Draw (StException e) /\
  never is_write (snd (run_script w i p)) = true /\
  fst (run_script w i p) =
    process_of (load_vectorstore w {| embedding_model_name := embedding_model |} p) /\
  (resource_cache p <> None -> fst (run_script w i p) = p) /\
  exists vs, resource_cache (fst (run_script w i p)) = Some (entry_loaded vs).
Proof.
  intros Hc.
  script_cases w p Hc.
  all: cbn [List.app]; intros Hin Herr; in_trace.
  all: injection Hin as <- <-; try congruence.
  all: replace e with e0 by congruence.
  all: repeat split; try reflexivity; try congruence; eauto.
  eexists; reflexivity.
Qed.

(** C5. When the call to the generation service raises, the exception is
    what the execution ends with and the runner shows it on the page as
    the last element; no response is written; the store is exactly what
    the index loader left (and unchanged when the index was already
    cached); the index stays loaded, and a later submission whose own
    calls answer is served from it, whatever happened before. *)
Theorem generation_failure_is_contained (w : World) (i : Inputs) (p : Process)
    (m : ChatModel) (rendered : string) (e : Exn) :
  consistent p = true ->
  In (Generate m rendered) (trace_of (app_py w i p)) ->
  chat_completion w m rendered = Err e ->
  outcome_of (app_py w i p) = Raised e /\
  last (snd (run_script w i p)) (Draw StPageConfig) = Draw (StException e) /\
  never is_write (snd (run_script w i p)) = true /\
  fst (run_script w i p) =
    process_of (load_vectorstore w {| embedding_model_name := embedding_model |} p) /\
  (resource_cache p <> None -> fst (run_script w i p) = p) /\
  exists vs,
    resource_cache (fst (run_script w i p)) = Some (entry_loaded vs) /\
    forall (w' : World) (i' : Inputs) (docs : list Document) (rendered' r : string),
      groq_api_key i' <> "" ->
      chat_groq_init w' groq_model_name (groq_api_key i') = None ->
      hf_embeddings_init w' embedding_model = None ->
      button i' = true ->
      condition i' <> "" ->
      allergies i' <> "" ->
      similarity_search w' vs (make_query (condition i') (allergies i')) = Ok docs ->
      Template.format prompt (chain_inputs (condition i') (allergies i') docs)
        = Ok rendered' ->
      chat_completion w'
        {| model_name := groq_model_name; model_api_key := groq_api_key i' |}
        rendered' = Ok r ->
      In (Draw (StWrite r)) (snd (run_script w' i' (fst (run_script w i p)))) /\
      fst (run_script w' i' (fst (run_script w i p))) = fst (run_script w i p).
Proof.
  intros Hc Hin Herr.
  destruct (generation_failure_aborts w i p m rendered e Hc Hin Herr)
    as (Ho & Hl & Hw & Hp & Hu & vs & Hvs).
  repeat (split; [assumption|]).
  exists vs. split; [exact Hvs|].
  intros w' i' docs rendered' r Hk Hm He Hb Hcn Ha Hs Hf Hr.
  destruct (submission_served w' i' _ vs docs rendered' r Hvs Hk Hm He Hb Hcn Ha Hs Hf Hr)
    as (_ & Hsame & Hwr).
  split; assumption.
Qed.

(** *** Sample executions *)

Lemma prompt_carries_inputs_sample :
  In (Generate Sample.client Sample.rendered)
    (snd (run_script Sample.up Sample.submission fresh_process)) /\
  Str.contains (condition Sample.submission) Sample.rendered = true /\
  Str.contains (allergies Sample.submission) Sample.rendered = true.
Proof.
  assert (H : In (Generate Sample.client Sample.rendered)
                (snd (run_script Sample.up Sample.submission fresh_process)))
    by (vm_compute; tauto).
  split; [exact H|].
  destruct (prompt_carries_inputs Sample.up Sample.submission fresh_process
              Sample.client Sample.rendered H)
    as (vs & docs & _ & _ & _ & Hc & Ha & _).
  split; assumption.
Defined.

Lemma filled_fields_pass_validation_sample :
  consistent Sample.warm = true /\
  button Sample.blanks = true /\
  In (Draw StButton) (snd (run_script Sample.up Sample.blanks Sample.warm)) /\
  condition Sample.blanks <> "" /\
  allergies Sample.blanks <> "" /\
  In (Retrieve (make_query (condition Sample.blanks) (allergies Sample.blanks)))
    (snd (run_script Sample.up Sample.blanks Sample.warm)) /\
  exists rendered,
    In (Generate {| model_name := groq_model_name;
                    model_api_key := groq_api_key Sample.blanks |} rendered)
      (snd (run_script Sample.up Sample.blanks Sample.warm)).
Proof.
  assert (Hb : In (Draw StButton)
                 (snd (run_script Sample.up Sample.blanks Sample.warm)))
    by (vm_compute; tauto).
  assert (Hc : condition Sample.blanks <> "") by discriminate.
  assert (Ha : allergies Sample.blanks <> "") by discriminate.
  split; [reflexivity|]. split; [reflexivity|]. split; [exact Hb|].
  split; [exact Hc|]. split; [exact Ha|].
  destruct (filled_fields_pass_validation Sample.up Sample.blanks Sample.warm
              eq_refl eq_refl Hb) as [_ H].
  destruct (H Hc Ha) as (Hr & vs & Hl & Hok & _).
  split; [exact Hr|].
  vm_compute in Hl. injection Hl as <-.
  destruct (Hok [Sample.leaflet_fibre; Sample.leaflet_sodium] eq_refl)
    as (rendered & _ & Hg).
  exists rendered. exact Hg.
Defined.

(** C9, as stated, fails: with two fields of blanks the validation passes
    and the retriever is called, but when the retrieval call raises the
    generation service is not called. *)
Lemma generation_skipped_when_retrieval_raises :
  consistent Sample.warm = true /\
  button Sample.blanks = true /\
  In (Draw StButton)
    (snd (run_script Sample.search_down Sample.blanks Sample.warm)) /\
  condition Sample.blanks <> "" /\
  allergies Sample.blanks <> "" /\
  In (Retrieve (make_query (condition Sample.blanks) (allergies Sample.blanks)))
    (snd (run_script Sample.search_down Sample.blanks Sample.warm)) /\
  never is_generate
    (snd (run_script Sample.search_down Sample.blanks Sample.warm)) = true.
Proof.
  split; [reflexivity|]. split; [reflexivity|].
  split; [vm_compute; tauto|].
  split; [discriminate|]. split; [discriminate|].
  split; [vm_compute; tauto | vm_compute; reflexivity].
Qed.

Lemma generation_failure_is_contained_sample :
  consistent Sample.warm = true /\
  In (Generate Sample.client Sample.rendered)
    (trace_of (app_py Sample.rate_limited Sample.submission Sample.warm)) /\
  chat_completion Sample.rate_limited Sample.client Sample.rendered
    = Err "429 Too Many Requests" /\
  outcome_of (app_py Sample.rate_limited Sample.submission Sample.warm)
    = Raised "429 Too Many Requests" /\
  fst (run_script Sample.rate_limited Sample.submission Sample.warm) = Sample.warm.
Proof.
  assert (Hin : In (Generate Sample.client Sample.rendered)
                  (trace_of (app_py Sample.rate_limited Sample.submission
                               Sample.warm)))
    by (vm_compute; tauto).
  split; [reflexivity|]. split; [exact Hin|]. split; [reflexivity|].
  destruct (generation_failure_is_contained Sample.rate_limited Sample.submission
              Sample.warm Sample.client Sample.rendered "429 Too Many Requests"
              eq_refl Hin eq_refl) as (Ho & _ & _ & _ & Hu & _).
  split; [exact Ho|]. apply Hu. discriminate.
Defined.

(** * Further properties of the script *)

(** ** Failures the script does not catch *)

(** X1. The constructor of the embedding model (line 140) is outside every
    [try]: when it raises, with a credential present and the model client
    built, the exception ends the execution and is shown by the runner as
    the last element; the index loader is not called, not even for a cached
    index, the page gets no submit button, and the store is as it was. *)
Theorem embeddings_failure_is_uncaught (w : World) (i : Inputs) (p : Process)
    (e : Exn) :
  groq_api_key i <> "" ->
  chat_groq_init w groq_model_name (groq_api_key i) = None ->
  hf_embeddings_init w embedding_model = Some e ->
  outcome_of (app_py w i p) = Raised e /\
  last (snd (run_script w i p)) (Draw StPageConfig) = Draw (StException e) /\
  quiet (snd (run_script w i p)) = true /\
  fst (run_script w i p) = p.
Proof.
  intros Hk Hm He. apply credential_present in Hk.
  unfold_script. rewrite Hk, Hm, He. cbn. repeat split.
Qed.

Lemma embeddings_failure_is_uncaught_sample :
  groq_api_key Sample.submission <> "" /\
  hf_embeddings_init Sample.no_embeddings embedding_model
    = Some "model not found" /\
  outcome_of (app_py Sample.no_embeddings Sample.submission Sample.warm)
    = Raised "model not found" /\
  quiet (snd (run_script Sample.no_embeddings Sample.submission Sample.warm))
    = true.
Proof.
  assert (Hk : groq_api_key Sample.submission <> "") by discriminate.
  split; [exact Hk|]. split; [reflexivity|].
  pose proof (embeddings_failure_is_uncaught Sample.no_embeddings
                Sample.submission Sample.warm "model not found"
                Hk eq_refl eq_refl) as H.
  split; apply H.
Defined.

(** X2. [retriever.invoke] (line 222) is outside every [try]: when the
    similarity search raises on the loaded index, the exception ends the
    execution and is shown by the runner as the last element; the
    generation service is not called, no response is written, and the
    store is what the index loader left. *)
Theorem retrieval_failure_aborts (w : World) (i : Inputs) (p : Process)
    (q : string) (vs : VectorStore) (e : Exn) :
  consistent p = true ->
  In (Retrieve q) (trace_of (app_py w i p)) ->
  outcome_of (load_vectorstore w {| embedding_model_name := embedding_model |} p)
    = Return (Some vs) ->
  similarity_search w vs q = Err e ->
  outcome_of (app_py w i p) = Raised e /\
  last (snd (run_script w i p)) (Draw StPageConfig) = Draw (StException e) /\
  never is_generate (snd (run_script w i p)) = true /\
  never is_write (snd (run_script w i p)) = true /\
  fst (run_script w i p) =
    process_of (load_vectorstore w {| embedding_model_name := embedding_model |} p).
Proof.
  intros Hc.
  script_cases w p Hc.
  all: cbn [List.app]; intros Hin Hload Herr; in_trace.
  all: injection Hin as <-; injection Hload as <-; try congruence.
  all: replace e with e0 by congruence.
  all: repeat split.
Qed.

Lemma retrieval_failure_aborts_sample :
  consistent Sample.warm = true /\
  In (Retrieve "diabetes nuts")
    (trace_of (app_py Sample.search_down Sample.submission Sample.warm)) /\
  similarity_search Sample.search_down Sample.index "diabetes nuts"
    = Err "dimension mismatch" /\
  outcome_of (app_py Sample.search_down Sample.submission Sample.warm)
    = Raised "dimension mismatch" /\
  never is_generate
    (snd (run_script Sample.search_down Sample.submission Sample.warm)) = true.
Proof.
  assert (Hin : In (Retrieve "diabetes nuts")
                  (trace_of (app_py Sample.search_down Sample.submission
                               Sample.warm)))
    by (vm_compute; tauto).
  split; [reflexivity|]. split; [exact Hin|]. split; [reflexivity|].
  pose proof (retrieval_failure_aborts Sample.search_down Sample.submission
                Sample.warm "diabetes nuts" Sample.index "dimension mismatch"
                eq_refl Hin eq_refl eq_refl) as H.
  split; apply H.
Defined.

(** ** The page without a submission *)

(** X3. When the button is not pressed, the fields are not looked at: the
    execution calls neither the retriever nor the generation service,
    shows no validation warning and writes no response, whatever the two
    fields hold; and once the button is on the page the execution runs to
    the end, the footer being its last element. *)
Theorem idle_page_calls_nothing (w : World) (i : Inputs) (p : Process) :
  consistent p = true ->
  button i = false ->
  never is_retrieve (snd (run_script w i p)) = true /\
  never is_generate (snd (run_script w i p)) = true /\
  never is_write (snd (run_script w i p)) = true /\
  ~ In (Draw (StWarning FillBothFields)) (snd (run_script w i p)) /\
  (In (Draw StButton) (snd (run_script w i p)) ->
   outcome_of (app_py w i p) = Return tt /\
   last (snd (run_script w i p)) (Draw StPageConfig) = Draw (StMarkdown Footer)).
Proof.
  intros Hc Hb.
  script_cases w p Hc.
  all: try congruence.
  all: split; [never_trace|]; split; [never_trace|]; split; [never_trace|].
  all: split; [cbn [List.app]; intros Hin; in_trace|].
  all: cbn [List.app]; intros Hin; in_trace.
  all: split; reflexivity.
Qed.

Lemma idle_page_calls_nothing_sample :
  consistent Sample.warm = true /\
  button Sample.idle = false /\
  never is_retrieve (snd (run_script Sample.up Sample.idle Sample.warm)) = true /\
  ~ In (Draw (StWarning FillBothFields))
      (snd (run_script Sample.up Sample.idle Sample.warm)).
Proof.
  split; [reflexivity|]. split; [reflexivity|].
  pose proof (idle_page_calls_nothing Sample.up Sample.idle Sample.warm
                eq_refl eq_refl) as H.
  split; apply H.
Defined.

(** Finds an event in the trace of a closed execution. *)
Ltac in_computed :=
  match goal with
  | |- In ?x ?t => let t' := eval vm_compute in t in change (In x t')
  end;
  in_goal.

(** ** How often the script constructs and retrieves *)

(** One execution invokes the retriever at most once, and only when the
    button was pressed. *)
Lemma run_script_retrieves (w : World) (i : Inputs) (p : Process) :
  count is_retrieve (snd (run_script w i p)) <= if button i then 1 else 0.
Proof.
  unfold_script. unfold_loader. split_script.
  all: repeat rewrite count_app; rewrite ?count_draws by reflexivity.
  all: cbn; lia.
Qed.

(** X4. In one execution the script constructs the model client at most
    once, constructs the embedding model at most as often as the client
    (never before it, never twice), and invokes the retriever at most
    once. *)
Theorem constructions_and_retrieval_at_most_once
    (w : World) (i : Inputs) (p : Process) :
  count is_new_model (snd (run_script w i p)) <= 1 /\
  count is_new_embeddings (snd (run_script w i p)) <=
    count is_new_model (snd (run_script w i p)) /\
  count is_retrieve (snd (run_script w i p)) <= 1.
Proof.
  unfold_script. unfold_loader. split_script.
  all: repeat rewrite count_app; rewrite ?count_draws by reflexivity.
  all: cbn; lia.
Qed.

(** X5. Over a whole session the script invokes the retriever at most as
    many times as there were executions with the button pressed: an
    execution triggered by anything else searches nothing. *)
Theorem retrievals_bounded_by_submissions
    (runs : list (World * Inputs)) (p : Process) :
  count is_retrieve (concat (snd (run_session runs p))) <= submissions runs.
Proof.
  revert p. induction runs as [|[w i] runs IH]; intros p.
  - unfold count; simpl; lia.
  - simpl. pose proof (run_script_retrieves w i p) as H1.
    destruct (run_script w i p) as [p1 t]. specialize (IH p1).
    destruct (run_session runs p1) as [p2 ts]. simpl in *.
    rewrite count_app. unfold submissions in *. simpl.
    destruct (button i); simpl; lia.
Qed.

(** ** What is shown and what is sent *)

(** X6. The response on the page is the text the generation service
    returned, unchanged: whenever an execution writes a response, it
    called the service through the client built from the typed
    credential, the service answered with exactly that text, the profile
    lines show the condition and the allergies as typed, the disclaimer
    follows, and the execution runs to the end. *)
Theorem response_is_service_answer (w : World) (i : Inputs) (p : Process)
    (r : string) :
  consistent p = true ->
  In (Draw (StWrite r)) (snd (run_script w i p)) ->
  (exists rendered,
      In (Generate {| model_name := groq_model_name;
                      model_api_key := groq_api_key i |} rendered)
        (snd (run_script w i p)) /\
      chat_completion w {| model_name := groq_model_name;
                           model_api_key := groq_api_key i |} rendered = Ok r) /\
  In (Draw (StMarkdown (PatientProfile (condition i)))) (snd (run_script w i p)) /\
  In (Draw (StMarkdown (AllergiesLine (allergies i)))) (snd (run_script w i p)) /\
  In (Draw (StInfo MedicalDisclaimer)) (snd (run_script w i p)) /\
  outcome_of (app_py w i p) = Return tt.
Proof.
  intros Hc.
  script_cases w p Hc.
  all: cbn [List.app]; intros Hin; in_trace.
  all: injection Hin as <-.
  all: split;
    [eexists; split;
       [in_goal
       | match goal with H : chat_completion _ _ _ = Ok _ |- _ => exact H end]|].
  all: do 3 (split; [in_goal|]).
  all: reflexivity.
Qed.

Lemma response_is_service_answer_sample :
  consistent Sample.warm = true /\
  In (Draw (StWrite "Prefer oats and lentils."))
    (snd (run_script Sample.up Sample.submission Sample.warm)) /\
  In (Draw (StMarkdown (PatientProfile (condition Sample.submission))))
    (snd (run_script Sample.up Sample.submission Sample.warm)) /\
  outcome_of (app_py Sample.up Sample.submission Sample.warm) = Return tt.
Proof.
  assert (Hin : In (Draw (StWrite "Prefer oats and lentils."))
                  (snd (run_script Sample.up Sample.submission Sample.warm)))
    by in_computed.
  split; [reflexivity|]. split; [exact Hin|].
  destruct (response_is_service_answer Sample.up Sample.submission Sample.warm
              "Prefer oats and lentils." eq_refl Hin)
    as (_ & Hp & _ & _ & Ho).
  split; [exact Hp | exact Ho].
Defined.


(** X7. Every call that leaves the script is made with the parameters the
    script fixes: the model client with the fixed model name and the
    credential as typed, the embedding model with its fixed name, the
    index from the fixed path, the retriever with this submission's query,
    and the generation service through the client of this credential. *)
Theorem calls_use_fixed_configuration (w : World) (i : Inputs) (p : Process)
    (e : Event) :
  In e (snd (run_script w i p)) -> configured i e.
Proof.
  unfold_script. unfold_loader. split_script.
  all: cbn [List.app]; intros Hin; in_trace.
  all: subst e; cbn; auto.
Qed.

Lemma calls_use_fixed_configuration_sample :
  In (NewChatGroq groq_model_name "gsk-test")
    (snd (run_script Sample.up Sample.submission fresh_process)) /\
  configured Sample.submission (NewChatGroq groq_model_name "gsk-test").
Proof.
  assert (Hin : In (NewChatGroq groq_model_name "gsk-test")
                  (snd (run_script Sample.up Sample.submission fresh_process)))
    by in_computed.
  split; [exact Hin|].
  exact (calls_use_fixed_configuration Sample.up Sample.submission
           fresh_process _ Hin).
Defined.

(** ** What is and what is not remembered *)

(** X8. A failure of the model-client constructor is not remembered: the
    execution leaves the store as it was, constructs no embedding model
    and loads nothing, and the next execution with a credential
    constructs the client again and, when that works, goes on to the
    embedding model. *)
Theorem client_failure_is_not_remembered (w : World) (i : Inputs) (p : Process)
    (e : Exn) :
  groq_api_key i <> "" ->
  chat_groq_init w groq_model_name (groq_api_key i) = Some e ->
  fst (run_script w i p) = p /\
  never is_new_embeddings (snd (run_script w i p)) = true /\
  never is_load (snd (run_script w i p)) = true /\
  forall (w' : World) (i' : Inputs),
    groq_api_key i' <> "" ->
    chat_groq_init w' groq_model_name (groq_api_key i') = None ->
    In (NewChatGroq groq_model_name (groq_api_key i'))
      (snd (run_script w' i' (fst (run_script w i p)))) /\
    In (NewEmbeddings embedding_model)
      (snd (run_script w' i' (fst (run_script w i p)))).
Proof.
  intros Hk Hm. apply credential_present in Hk.
  assert (Hs : fst (run_script w i p) = p /\
               never is_new_embeddings (snd (run_script w i p)) = true /\
               never is_load (snd (run_script w i p)) = true).
  { unfold_script. rewrite Hk, Hm. cbn. auto. }
  destruct Hs as (Hs & Hn & Hl).
  split; [exact Hs|]. split; [exact Hn|]. split; [exact Hl|].
  rewrite Hs. clear Hs Hn Hl Hk Hm.
  intros w' i' Hk Hm. apply credential_present in Hk.
  unfold_script. unfold_loader. rewrite Hk, Hm. split_script.
  all: split; in_goal.
Qed.

Lemma client_failure_is_not_remembered_sample :
  groq_api_key Sample.submission <> "" /\
  chat_groq_init Sample.bad_client groq_model_name (groq_api_key Sample.submission)
    = Some "validation error" /\
  fst (run_script Sample.bad_client Sample.submission fresh_process)
    = fresh_process /\
  never is_load (snd (run_script Sample.bad_client Sample.submission fresh_process))
    = true.
Proof.
  assert (Hk : groq_api_key Sample.submission <> "") by discriminate.
  split; [exact Hk|]. split; [reflexivity|].
  destruct (client_failure_is_not_remembered Sample.bad_client Sample.submission
              fresh_process "validation error" Hk eq_refl)
    as (Hs & _ & Hl & _).
  split; [exact Hs | exact Hl].
Defined.

(** Once the cache is filled an execution reads it and nothing else. *)
Lemma run_session_hit (runs : list (World * Inputs)) (p : Process)
    (c : CacheEntry) :
  resource_cache p = Some c ->
  fst (run_session runs p) = p /\
  count is_load (concat (snd (run_session runs p))) = 0.
Proof.
  intros Hp. induction runs as [|[w i] runs IH]; [split; reflexivity|].
  simpl. destruct (run_script_hit w i p c Hp) as [Hs Hn].
  destruct (run_script w i p) as [p1 t]. simpl in Hs, Hn. subst p1.
  destruct (run_session runs p) as [p2 ts]. simpl in *.
  destruct IH as [-> Hts]. rewrite count_app. split; [reflexivity | lia].
Qed.

(** X9. The cached index is read-only: once the cache holds an entry, no
    sequence of executions, in whatever worlds and with whatever inputs,
    changes the store or deserializes again. *)
Theorem cached_index_is_read_only (runs : list (World * Inputs)) (p : Process)
    (c : CacheEntry) :
  resource_cache p = Some c ->
  fst (run_session runs p) = p /\
  count is_load (concat (snd (run_session runs p))) = 0.
Proof. apply run_session_hit. Qed.

Lemma cached_index_is_read_only_sample :
  resource_cache Sample.warm = Some (entry_loaded Sample.index) /\
  fst (run_session [(Sample.no_index, Sample.submission);
                    (Sample.rate_limited, Sample.blanks)] Sample.warm)
  = Sample.warm.
Proof.
  split; [reflexivity|].
  destruct (cached_index_is_read_only
              [(Sample.no_index, Sample.submission);
               (Sample.rate_limited, Sample.blanks)]
              Sample.warm (entry_loaded Sample.index) eq_refl) as [Hs _].
  exact Hs.
Defined.

(** One execution that gets past the credential and the client builds
    both the client and the embedding model, once each. *)
Lemma run_script_rebuilds (w : World) (i : Inputs) (p : Process) :
  groq_api_key i <> "" ->
  chat_groq_init w groq_model_name (groq_api_key i) = None ->
  count is_new_model (snd (run_script w i p)) = 1 /\
  count is_new_embeddings (snd (run_script w i p)) = 1.
Proof.
  intros Hk Hm. apply credential_present in Hk.
  unfold_script. unfold_loader. rewrite Hk, Hm. split_script.
  all: repeat rewrite count_app; rewrite ?count_draws by reflexivity.
  all: cbn; lia.
Qed.

(** X10. Only the index is cached.  In a session where every execution
    has a credential and a client constructor that works, the model client
    and the embedding model are constructed anew in each execution: as
    many constructions of each as executions, whatever the cache holds. *)
Theorem client_and_embeddings_rebuilt_each_execution
    (runs : list (World * Inputs)) (p : Process) :
  Forall (fun r =>
            groq_api_key (snd r) <> "" /\
            chat_groq_init (fst r) groq_model_name (groq_api_key (snd r)) = None)
         runs ->
  count is_new_model (concat (snd (run_session runs p))) = length runs /\
  count is_new_embeddings (concat (snd (run_session runs p))) = length runs.
Proof.
  intros H. revert p. induction H as [|[w i] runs [Hk Hm] _ IH]; intros p.
  - split; reflexivity.
  - simpl in Hk, Hm. simpl.
    destruct (run_script_rebuilds w i p Hk Hm) as [H1 H2].
    destruct (run_script w i p) as [p1 t]. simpl in H1, H2.
    specialize (IH p1). destruct (run_session runs p1) as [p2 ts]. simpl in *.
    rewrite !count_app. lia.
Qed.

Lemma client_and_embeddings_rebuilt_each_execution_sample :
  Forall (fun r =>
            groq_api_key (snd r) <> "" /\
            chat_groq_init (fst r) groq_model_name (groq_api_key (snd r)) = None)
         [(Sample.up, Sample.submission); (Sample.up, Sample.idle)] /\
  count is_new_embeddings
    (concat (snd (run_session [(Sample.up, Sample.submission);
                               (Sample.up, Sample.idle)] fresh_process))) = 2.
Proof.
  assert (H : Forall (fun r =>
                 groq_api_key (snd r) <> "" /\
                 chat_groq_init (fst r) groq_model_name (groq_api_key (snd r))
                   = None)
                [(Sample.up, Sample.submission); (Sample.up, Sample.idle)]).
  { repeat constructor; discriminate. }
  split; [exact H|].
  destruct (client_and_embeddings_rebuilt_each_execution _ fresh_process H)
    as [_ H2].
  exact H2.
Defined.

(** X11. Every store a process can reach from an empty cache is
    consistent: its cache is empty, or holds a loaded index with no page
    element recorded, or holds the failure of the load with its error
    box. *)
Theorem reachable_stores_are_consistent (runs : list (World * Inputs)) :
  consistent (fst (run_session runs fresh_process)) = true.
Proof. apply run_session_consistent. reflexivity. Qed.

(** ** The end of the page *)

(** X12. The footer is drawn exactly when the execution runs to its end:
    every [st.stop()] (missing credential, failed client, failed index,
    validation warning) and every uncaught exception leaves the page
    without its footer. *)
Theorem footer_iff_completes (w : World) (i : Inputs) (p : Process) :
  consistent p = true ->
  (In (Draw (StMarkdown Footer)) (snd (run_script w i p)) <->
   outcome_of (app_py w i p) = Return tt).
Proof.
  intros Hc.
  script_cases w p Hc.
  all: cbn [List.app].
  all: split; [intros Hin; in_trace; try reflexivity
              | intros Ho; try discriminate Ho; in_goal].
Qed.

Lemma footer_iff_completes_sample :
  consistent Sample.warm = true /\
  outcome_of (app_py Sample.up Sample.no_condition Sample.warm) = Stopped /\
  ~ In (Draw (StMarkdown Footer))
      (snd (run_script Sample.up Sample.no_condition Sample.warm)).
Proof.
  split; [reflexivity|]. split; [reflexivity|].
  destruct (footer_iff_completes Sample.up Sample.no_condition Sample.warm
              eq_refl) as [H _].
  intros Hin. specialize (H Hin). discriminate H.
Defined.

(** ** Retrieved documents in the prompt *)

(** X13. Nothing guards against an empty retrieval: when the retriever
    returns no document, the generation service is still called, with the
    template rendered on an empty context. *)
Theorem empty_retrieval_still_generates (w : World) (i : Inputs) (p : Process)
    (vs : VectorStore) :
  consistent p = true ->
  In (Retrieve (make_query (condition i) (allergies i)))
    (trace_of (app_py w i p)) ->
  outcome_of (load_vectorstore w {| embedding_model_name := embedding_model |} p)
    = Return (Some vs) ->
  similarity_search w vs (make_query (condition i) (allergies i)) = Ok [] ->
  exists rendered,
    In (Generate {| model_name := groq_model_name;
                    model_api_key := groq_api_key i |} rendered)
      (snd (run_script w i p)) /\
    Template.format prompt
      [("condition", condition i); ("allergies", allergies i); ("context", "")]
      = Ok rendered.
Proof.
  intros Hc.
  script_cases w p Hc.
  all: try no_format_error.
  all: cbn [List.app]; intros Hin Hload Hs; in_trace.
  all: injection Hload as <-; try congruence.
  all: match goal with
       | H : similarity_search _ _ _ = Ok ?a |- _ =>
           assert (a = []) by congruence; subst a
       end.
  all: eexists; split;
         [in_goal
         | match goal with
           | H : Template.format prompt _ = Ok _ |- _ => exact H
           end].
Qed.

Lemma empty_retrieval_still_generates_sample :
  consistent Sample.warm = true /\
  In (Retrieve (make_query (condition Sample.submission)
                  (allergies Sample.submission)))
    (trace_of (app_py Sample.nothing_found Sample.submission Sample.warm)) /\
  similarity_search Sample.nothing_found Sample.index
    (make_query (condition Sample.submission) (allergies Sample.submission))
    = Ok [] /\
  exists rendered,
    In (Generate {| model_name := groq_model_name;
                    model_api_key := groq_api_key Sample.submission |} rendered)
      (snd (run_script Sample.nothing_found Sample.submission Sample.warm)).
Proof.
  assert (Hin : In (Retrieve (make_query (condition Sample.submission)
                                (allergies Sample.submission)))
                  (trace_of (app_py Sample.nothing_found Sample.submission
                               Sample.warm)))
    by in_computed.
  split; [reflexivity|]. split; [exact Hin|]. split; [reflexivity|].
  destruct (empty_retrieval_still_generates Sample.nothing_found
              Sample.submission Sample.warm Sample.index
              eq_refl Hin eq_refl eq_refl) as (rendered & Hg & _).
  exists rendered. exact Hg.
Defined.

(** X15. The template has exactly the three fields [condition],
    [allergies] and [context], once each and in this order, around four
    fixed texts that hold no brace: for every input, braces in the typed
    text included, rendering succeeds and gives the fixed texts with the
    three values put between them as they are. *)
Theorem prompt_splices_three_values :
  exists l0 l1 l2 l3 : string,
    (forall (c a : string) (docs : list Document),
        Template.format prompt (chain_inputs c a docs) =
        Ok (l0 ++ c ++ l1 ++ a ++ l2 ++ format_docs docs ++ l3)%string) /\
    forallb (fun l => negb (Str.contains "{" l) && negb (Str.contains "}" l))
      [l0; l1; l2; l3] = true /\
    Str.contains "Patient Condition(s): " l0 = true /\
    Str.contains "Allergies: " l1 = true /\
    Str.contains "Context from medical literature:" l2 = true.
Proof.
  let r := eval vm_compute in (Template.parse false "" prompt) in
  lazymatch r with
  | Some [Template.Lit ?l0; _; Template.Lit ?l1; _; Template.Lit ?l2; _;
          Template.Lit ?l3] =>
      assert (Hparse : Template.parse false "" prompt = r)
        by (vm_compute; reflexivity);
      exists l0, l1, l2, l3
  end.
  split.
  - intros c a docs. unfold Template.format. rewrite Hparse.
    cbn [Template.fill Template.lookup chain_inputs String.eqb Ascii.eqb
         Bool.eqb].
    now rewrite StrFacts.append_empty_r.
  - repeat split; vm_compute; reflexivity.
Qed.

(** ** When a submission is possible *)

(** X16. The two fields and the submit button are on the page exactly when
    initialization went through: a credential was typed, the model client
    and the embedding model were constructed, and the index loader
    returned a store.  In every other execution the page has no button,
    so nothing can be submitted from it. *)
Theorem button_iff_initialized (w : World) (i : Inputs) (p : Process) :
  consistent p = true ->
  (In (Draw StButton) (snd (run_script w i p)) <->
   groq_api_key i <> "" /\
   chat_groq_init w groq_model_name (groq_api_key i) = None /\
   hf_embeddings_init w embedding_model = None /\
   exists vs,
     outcome_of (load_vectorstore w {| embedding_model_name := embedding_model |} p)
       = Return (Some vs)) /\
  (In (Draw StButton) (snd (run_script w i p)) ->
   In (Draw (StTextInput "condition")) (snd (run_script w i p)) /\
   In (Draw (StTextInput "allergies")) (snd (run_script w i p))).
Proof.
  intros Hc.
  script_cases w p Hc.
  all: cbn [List.app].
  all: match goal with
       | H : negb (Str.truthy _) = false |- _ =>
           pose proof (proj2 (credential_present _) H) as Hk
       | H : negb (Str.truthy _) = true |- _ =>
           assert (Hk : ~ groq_api_key i <> "")
             by (intros Hk; apply credential_present in Hk; congruence)
       end.
  all: split;
         [split;
            [intros Hin; in_trace
            | intros (Hk' & Hm & He & vs' & Hl);
              try contradiction; try congruence; try discriminate Hl]
         | intros Hin; in_trace].
  all: try (split; in_goal).
  all: try in_goal.
  all: split; [exact Hk|]; do 2 (split; [reflexivity|]); eexists; reflexivity.
Qed.

Lemma button_iff_initialized_sample :
  consistent fresh_process = true /\
  In (Draw StButton) (snd (run_script Sample.up Sample.idle fresh_process)) /\
  ~ In (Draw StButton)
      (snd (run_script Sample.no_embeddings Sample.idle fresh_process)).
Proof.
  split; [reflexivity|].
  destruct (button_iff_initialized Sample.up Sample.idle fresh_process eq_refl)
    as [[_ Hyes] _].
  destruct (button_iff_initialized Sample.no_embeddings Sample.idle
              fresh_process eq_refl) as [[Hno _] _].
  split.
  - apply Hyes. split; [discriminate|]. split; [reflexivity|].
    split; [reflexivity|]. exists Sample.index. reflexivity.
  - intros Hin. destruct (Hno Hin) as (_ & _ & He & _). discriminate He.
Defined.

(** X17. Whatever happens later in an execution, the page configuration
    is its first event and the credential field is drawn: after any
    failure the credential can be typed again. *)
Theorem credential_field_always_drawn (w : World) (i : Inputs) (p : Process) :
  hd_error (snd (run_script w i p)) = Some (Draw StPageConfig) /\
  In (Draw (StTextInput "groq_api_key")) (snd (run_script w i p)).
Proof.
  unfold_script. unfold_loader. split_script.
  all: split; [reflexivity | in_goal].
Qed.
